(** * AdminDashboard: the waitlist dashboard component

    A shallow embedding of [src/components/AdminDashboard.tsx]: the three
    pieces of React state, the asynchronous [fetchWaitlist] controller, the
    derived [stats], the conditional rendering, and the mount / click /
    settle life cycle of the component. *)

From Stdlib Require Import String List ZArith Bool Arith Lia Permutation.
Import ListNotations.
Open Scope string_scope.
Open Scope list_scope.

(** ** Data model *)

(** [interface WaitlistEntry]. *)
Record WaitlistEntry := mkEntry {
  id : Z;
  name : string;
  email : string;
  occupation : string;
  role : string;
  created_at : string
}.

(** The three [useState] cells of the component. [error] has type
    [string | null]. *)
Record State := mkState {
  entries : list WaitlistEntry;
  loading : bool;
  error : option string
}.

(** The initial values handed to [useState]: [[]], [true], [null]. *)
Definition initial_state : State :=
  {| entries := []; loading := true; error := None |}.

(** A thrown JavaScript [Error]; the component only ever reads
    [err.message]. *)
Record JsError := mkError { message : string }.

Definition Error (msg : string) : JsError := {| message := msg |}.

(** A settled promise. *)
Inductive Settled (A : Type) : Type :=
| Fulfilled (value : A)
| Rejected (reason : JsError).
Arguments Fulfilled {A} value.
Arguments Rejected {A} reason.

(** An optional, nullable object field: missing ([undefined]), [null], or
    holding a value. *)
Inductive Nullable (A : Type) : Type :=
| Undefined
| Null
| Value (a : A).
Arguments Undefined {A}.
Arguments Null {A}.
Arguments Value {A} a.

(** A parsed JSON value other than [null], seen through the one property
    the component reads: [data] is missing (as it also is on a number, a
    string, a boolean or an array), [null], or an array of entries. A
    [data] holding anything else cannot be stored in the entries cell as
    declared ([useState<WaitlistEntry[]>]) and is left out. *)
Record ResponseBody := mkBody { data : Nullable (list WaitlistEntry) }.

(** What [response.json()] resolves to (typed [any]): the JSON text
    [null], or any other value. *)
Inductive Json : Type :=
| JsonNull
| JsonValue (body : ResponseBody).

(** What [fetch] resolves to: the HTTP status and what [response.json()]
    will settle to (a parse failure rejects). *)
Record Response := mkResponse {
  status : Z;
  json : Settled Json
}.

(** [response.ok]: the status is in the range 200-299. *)
Definition ok (response : Response) : bool :=
  ((200 <=? status response) && (status response <=? 299))%Z.

(** Everything the component can touch: its own state, the console, and
    the requests it has sent so far (oldest first). *)
Record World := mkWorld {
  state : State;
  console : list (string * JsError);
  requests : list string
}.

(** ** Statements with exceptions over the world *)

Inductive Completion (A : Type) : Type :=
| Normal (a : A)
| Throw (err : JsError).
Arguments Normal {A} a.
Arguments Throw {A} err.

Definition M (A : Type) : Type := World -> Completion A * World.

Definition ret {A} (a : A) : M A := fun w => (Normal a, w).

Definition bind {A B} (m : M A) (k : A -> M B) : M B :=
  fun w =>
    match m w with
    | (Normal a, w') => k a w'
    | (Throw err, w') => (Throw err, w')
    end.

Definition throw {A} (err : JsError) : M A := fun w => (Throw err, w).

Notation "x <- m ;; k" := (bind m (fun x => k))
  (at level 61, m at next level, right associativity).
Notation "m ;; k" := (bind m (fun _ => k))
  (at level 61, right associativity).

(** [try { body } catch (err) { handler err } finally { fin }]. *)
Definition try_catch_finally (body : M unit) (handler : JsError -> M unit)
    (fin : M unit) : M unit :=
  fun w =>
    let (r, w1) := body w in
    let (r', w2) :=
      match r with
      | Normal _ => (Normal tt, w1)
      | Throw err => handler err w1
      end in
    let (rf, w3) := fin w2 in
    match rf with
    | Normal _ => (r', w3)
    | Throw err => (Throw err, w3)
    end.

(** The world a statement leaves behind. *)
Definition exec {A} (m : M A) (w : World) : World := snd (m w).

(** [await p]: the value of a fulfilled promise, or its rejection thrown. *)
Definition await {A} (p : Settled A) : M A :=
  match p with
  | Fulfilled v => ret v
  | Rejected err => throw err
  end.

(** The state setters returned by [useState]. *)
Definition update_state (f : State -> State) : M unit :=
  fun w =>
    (Normal tt,
     {| state := f (state w); console := console w; requests := requests w |}).

Definition setEntries (v : list WaitlistEntry) : M unit :=
  update_state (fun s =>
    {| entries := v; loading := loading s; error := error s |}).

Definition setLoading (v : bool) : M unit :=
  update_state (fun s =>
    {| entries := entries s; loading := v; error := error s |}).

Definition setError (v : option string) : M unit :=
  update_state (fun s =>
    {| entries := entries s; loading := loading s; error := v |}).

(** [console.error(label, err)]. *)
Definition console_error (label : string) (err : JsError) : M unit :=
  fun w =>
    (Normal tt,
     {| state := state w;
        console := console w ++ [(label, err)];
        requests := requests w |}).

(** [fetch(url)] sends one GET request; the promise it returns settles
    later, with whatever the network answers. *)
Definition fetch (url : string) : M unit :=
  fun w =>
    (Normal tt,
     {| state := state w;
        console := console w;
        requests := requests w ++ [url] |}).

(** The [TypeError] the engine raises when a property of [null] is read
    (the wording is that of the V8 engine; nothing below depends on it
    beyond its not being the component's own message). *)
Definition null_data_TypeError : JsError :=
  Error "Cannot read properties of null (reading 'data')".

(** [parsed.data]: reading the property throws on [null]. *)
Definition get_data (parsed : Json) : M (Nullable (list WaitlistEntry)) :=
  match parsed with
  | JsonNull => throw null_data_TypeError
  | JsonValue body => ret (data body)
  end.

(** ** The fetch controller *)

Definition waitlist_url : string := "http://localhost:5000/api/waitlist".

(** [v || []] for a field that holds an array when it holds anything:
    [undefined] and [null] are falsy, an array (even an empty one) is
    truthy. *)
Definition or_empty (v : Nullable (list WaitlistEntry)) : list WaitlistEntry :=
  match v with
  | Value l => l
  | Undefined | Null => []
  end.

(** [fetchWaitlist] up to its first [await]: the two setters and the call
    of [fetch], which run synchronously in the caller's turn. *)
Definition fetchWaitlist_start : M unit :=
  setLoading true ;;
  setError None ;;
  fetch waitlist_url.

(** [fetchWaitlist] from the moment the request settles with [net]. Between
    [await fetch(...)] and [await response.json()] the function touches
    nothing, so both suspensions are resumed in one piece. *)
Definition fetchWaitlist_resume (net : Settled Response) : M unit :=
  try_catch_finally
    (response <- await net ;;
     (if negb (ok response)
      then throw (Error "Failed to fetch waitlist")
      else ret tt) ;;
     parsed <- await (json response) ;;
     field <- get_data parsed ;;
     setEntries (or_empty field))
    (fun err =>
       setError (Some (message err)) ;;
       console_error "Error fetching waitlist:" err)
    (setLoading false).

(** One whole invocation, the network answering [net]. *)
Definition fetchWaitlist (net : Settled Response) : M unit :=
  fetchWaitlist_start ;;
  fetchWaitlist_resume net.

(** ** Derived stats *)

Record Stats := mkStats {
  total : nat;
  eventPlanners : nat;
  vendors : nat
}.

Definition stats (entries : list WaitlistEntry) : Stats :=
  {| total := length entries;
     eventPlanners :=
       length (filter (fun e => role e =? "event-planner") entries);
     vendors := length (filter (fun e => role e =? "vendor") entries) |}.

(** ** The view *)

(** The two buttons; both have [onClick={fetchWaitlist}]. *)
Inductive Action : Type := TryAgain | Refresh.

Definition Action_eqb (a b : Action) : bool :=
  match a, b with
  | TryAgain, TryAgain | Refresh, Refresh => true
  | _, _ => false
  end.

(** The red box: the message and its button. *)
Record ErrorBanner := mkBanner {
  banner_message : string;
  banner_button : Action
}.

(** One [<tr>] of the table. *)
Record Row := mkRow {
  row_key : Z;
  row_name : string;
  row_href : string;
  row_email : string;
  row_occupation : string;
  row_badge : string;
  row_label : string;
  row_joined : string
}.

Inductive TableBody : Type :=
| EmptyState
| Table (rows : list Row).

(** What the component returns: the spinner alone, or the page with the
    three stats cards, the optional error box, the "Refresh" button and the
    body of the entries card. *)
Inductive View : Type :=
| Spinner
| Dashboard (cards : Stats) (banner : option ErrorBanner)
    (refresh : Action) (body : TableBody).

Definition shows_spinner (v : View) : bool :=
  match v with Spinner => true | Dashboard _ _ _ _ => false end.

Definition shows_stats_and_table (v : View) : bool :=
  match v with Spinner => false | Dashboard _ _ _ _ => true end.

Definition shows_error_banner (v : View) : bool :=
  match v with Dashboard _ (Some _) _ _ => true | _ => false end.

Definition shows_empty_state (v : View) : bool :=
  match v with Dashboard _ _ _ EmptyState => true | _ => false end.

(** The buttons a view offers to the user. *)
Definition actions (v : View) : list Action :=
  match v with
  | Spinner => []
  | Dashboard _ banner refresh _ =>
      match banner with
      | Some b => [banner_button b]
      | None => []
      end ++ [refresh]
  end.

(** The rows of the table a view shows, if any. *)
Definition table_rows (v : View) : list Row :=
  match v with
  | Dashboard _ _ _ (Table rows) => rows
  | _ => []
  end.

Definition role_badge (role : string) : string :=
  if role =? "event-planner"
  then "bg-green-100 text-green-800"
  else "bg-purple-100 text-purple-800".

Definition role_label (role : string) : string :=
  if role =? "event-planner" then "Event Planner" else "Vendor".

(** [{error && (...)}]: [null] and the empty string are falsy and show
    nothing. *)
Definition error_banner (error : option string) : option ErrorBanner :=
  match error with
  | None => None
  | Some msg =>
      if msg =? "" then None
      else Some {| banner_message := msg; banner_button := TryAgain |}
  end.

Section Component.

(** [formatDate] hands the string to the platform's [Date] and
    [toLocaleDateString('en-US', ...)]; the component does not depend on
    what comes back. *)
Variable formatDate : string -> string.

Definition render_row (entry : WaitlistEntry) : Row :=
  {| row_key := id entry;
     row_name := name entry;
     row_href := ("mailto:" ++ email entry)%string;
     row_email := email entry;
     row_occupation := occupation entry;
     row_badge := role_badge (role entry);
     row_label := role_label (role entry);
     row_joined := formatDate (created_at entry) |}.

Definition table_body (entries : list WaitlistEntry) : TableBody :=
  if (length entries =? 0)%nat then EmptyState else Table (map render_row entries).

(** The body of the component function after the hooks. *)
Definition render (s : State) : View :=
  if loading s then Spinner
  else Dashboard (stats (entries s)) (error_banner (error s)) Refresh
         (table_body (entries s)).

(** ** Life cycle *)

(** A component instance: its world, the number of [fetchWaitlist] calls
    that are suspended on the network, the dependency array [useEffect]
    saw at the previous commit ([None] before the first), and the view the
    last commit put in front of the user. *)
Record Instance := mkInstance {
  world : World;
  in_flight : nat;
  effect_deps : option (list Z);
  screen : View
}.

(** Calling [fetchWaitlist()] without awaiting it, as the effect and the
    buttons do: the synchronous prefix runs, the rest is suspended. The
    function has no guard against a call that is already suspended. *)
Definition call_fetchWaitlist (c : Instance) : Instance :=
  {| world := exec fetchWaitlist_start (world c);
     in_flight := S (in_flight c);
     effect_deps := effect_deps c;
     screen := screen c |}.

(** An effect runs after the first commit and after a commit whose
    dependency array differs from the previous one. *)
Definition deps_changed (prev : option (list Z)) (next : list Z) : bool :=
  match prev with
  | None => true
  | Some p => if list_eq_dec Z.eq_dec p next then false else true
  end.

(** [useEffect(() => { fetchWaitlist(); }, [])], evaluated at a commit. *)
Definition useEffect (c : Instance) : Instance :=
  let deps : list Z := [] in
  if deps_changed (effect_deps c) deps
  then {| world := world (call_fetchWaitlist c);
          in_flight := in_flight (call_fetchWaitlist c);
          effect_deps := Some deps;
          screen := screen c |}
  else {| world := world c;
          in_flight := in_flight c;
          effect_deps := Some deps;
          screen := screen c |}.

(** A render of the current state is committed: it becomes the screen, and
    the effects are evaluated. *)
Definition commit (c : Instance) : Instance :=
  useEffect {| world := world c;
               in_flight := in_flight c;
               effect_deps := effect_deps c;
               screen := render (state (world c)) |}.

(** The instance with its first render on screen, before any effect has
    run. The first render is that of [initial_state], whose [loading] is
    [true]: the spinner (see [created_screen]). *)
Definition created : Instance :=
  {| world := {| state := initial_state; console := []; requests := [] |};
     in_flight := 0;
     effect_deps := None;
     screen := Spinner |}.

(** Mounting: the first render is committed and the effect runs. *)
Definition mount : Instance := useEffect created.

(** What can happen to a mounted component: the user presses a button, the
    network settles one of the suspended calls, or a pending re-render is
    committed. *)
Inductive Event : Type :=
| Click (a : Action)
| Settle (net : Settled Response)
| Render.

(** One event. A click is taken by the button on the screen the user has
    in front of them and calls [fetchWaitlist]; the re-render it asks for is
    an event of its own, so a second click can arrive before the buttons are
    gone. An answer resumes a suspended call and its re-render is committed
    with it (every answer ends with [loading = false], so committing later
    would only keep the buttons away longer). An event that cannot happen
    (a button that is not on screen, an answer nobody waits for) gives
    [None]. *)
Definition step (ev : Event) (c : Instance) : option Instance :=
  match ev with
  | Click a =>
      if existsb (Action_eqb a) (actions (screen c))
      then Some (call_fetchWaitlist c)
      else None
  | Settle net =>
      match in_flight c with
      | O => None
      | S n =>
          Some (commit
                  {| world := exec (fetchWaitlist_resume net) (world c);
                     in_flight := n;
                     effect_deps := effect_deps c;
                     screen := screen c |})
      end
  | Render => Some (commit c)
  end.

Fixpoint run (evs : list Event) (c : Instance) : option Instance :=
  match evs with
  | [] => Some c
  | ev :: rest =>
      match step ev c with
      | Some c' => run rest c'
      | None => None
      end
  end.

Definition is_click (ev : Event) : bool :=
  match ev with Click _ => true | Settle _ | Render => false end.

Definition is_settle (ev : Event) : bool :=
  match ev with Settle _ => true | Click _ | Render => false end.

End Component.

(** ** Vocabulary of the statements *)

(** The number of entries whose role is [r], counted one entry at a time. *)
Fixpoint count_role (r : string) (l : list WaitlistEntry) : nat :=
  match l with
  | [] => 0
  | e :: rest =>
      if string_dec (role e) r then S (count_role r rest)
      else count_role r rest
  end.

(** The status is outside 200-299. *)
Definition non_2xx (response : Response) : Prop :=
  (status response < 200 \/ 299 < status response)%Z.

Definition is_2xx (response : Response) : Prop :=
  (200 <= status response <= 299)%Z.

(** The ways an invocation fails: [fetch] rejects (network), the status is
    not 2xx, [response.json()] rejects (parse), or the parsed body is
    [null]. *)
Inductive ends_in_failure : Settled Response -> Prop :=
| fail_network (err : JsError) :
    ends_in_failure (Rejected err)
| fail_status (response : Response) :
    non_2xx response -> ends_in_failure (Fulfilled response)
| fail_parse (response : Response) (err : JsError) :
    json response = Rejected err -> ends_in_failure (Fulfilled response)
| fail_null_body (response : Response) :
    json response = Fulfilled JsonNull -> ends_in_failure (Fulfilled response).

(** The world after the [catch] and [finally] blocks have handled [err]. *)
Definition caught (err : JsError) (w : World) : World :=
  {| state := {| entries := entries (state w);
                 loading := false;
                 error := Some (message err) |};
     console := console w ++ [("Error fetching waitlist:", err)];
     requests := requests w |}.

(** The stats cards of a view, when it has them. *)
Definition cards_of (v : View) : option Stats :=
  match v with
  | Spinner => None
  | Dashboard cards _ _ _ => Some cards
  end.

(** Exactly one of three flags is set. *)
Definition exactly_one (a b c : bool) : bool :=
  (a && negb b && negb c) || (negb a && b && negb c) || (negb a && negb b && c).

(** The reading of the view as three exclusive screens. *)
Definition three_exclusive_views (v : View) : bool :=
  exactly_one (shows_spinner v) (shows_error_banner v) (shows_stats_and_table v).

(** A formatter to run the view on concrete states. *)
Definition sample_formatDate (dateString : string) : string := dateString.

Definition sample_entry (n : Z) (r : string) : WaitlistEntry :=
  {| id := n; name := "Ada"; email := "ada@example.org";
     occupation := "Planner"; role := r;
     created_at := "2024-05-01T10:00:00Z" |}.

(** An entry whose role is neither of the two the component knows. *)
Definition other_role (e : WaitlistEntry) : bool :=
  negb (role e =? "event-planner") && negb (role e =? "vendor").

(** The number of rows carrying a given role label. *)
Definition count_label (lbl : string) (rows : list Row) : nat :=
  length (filter (fun r => row_label r =? lbl) rows).

(** What holds of a mounted component between events: the effect has
    run, and while [loading] is [true] some call of [fetchWaitlist] is
    suspended and no error is set. *)
Definition lifecycle_inv (c : Instance) : Prop :=
  effect_deps c = Some [] /\
  (loading (state (world c)) = true ->
   1 <= in_flight c /\ error (state (world c)) = None).

(** * Properties *)

(** ** The controller, one invocation at a time *)

Ltac unfold_controller :=
  unfold fetchWaitlist, fetchWaitlist_start, fetchWaitlist_resume,
    try_catch_finally, exec, bind, await, get_data, ret, throw, fetch,
    console_error,
    setEntries, setLoading, setError, update_state, caught.

Lemma ok_true_iff (r : Response) : ok r = true <-> is_2xx r.
Proof.
  unfold ok, is_2xx. rewrite andb_true_iff, !Z.leb_le. tauto.
Qed.

Lemma ok_false_iff (r : Response) : ok r = false <-> non_2xx r.
Proof.
  unfold ok, non_2xx. rewrite andb_false_iff, !Z.leb_gt. tauto.
Qed.

Lemma start_world (w : World) :
  exec fetchWaitlist_start w =
  {| state := {| entries := entries (state w);
                 loading := true;
                 error := None |};
     console := console w;
     requests := requests w ++ [waitlist_url] |}.
Proof. reflexivity. Qed.

Lemma resume_rejected (err : JsError) (w : World) :
  exec (fetchWaitlist_resume (Rejected err)) w = caught err w.
Proof. reflexivity. Qed.

Lemma resume_non_2xx (r : Response) (w : World) :
  non_2xx r ->
  exec (fetchWaitlist_resume (Fulfilled r)) w =
  caught (Error "Failed to fetch waitlist") w.
Proof.
  intros H. apply ok_false_iff in H.
  unfold_controller. rewrite H. reflexivity.
Qed.

Lemma resume_parse_error (r : Response) (err : JsError) (w : World) :
  is_2xx r -> json r = Rejected err ->
  exec (fetchWaitlist_resume (Fulfilled r)) w = caught err w.
Proof.
  intros H J. apply ok_true_iff in H.
  unfold_controller. rewrite H, J. reflexivity.
Qed.

Lemma resume_success (r : Response) (body : ResponseBody) (w : World) :
  is_2xx r -> json r = Fulfilled (JsonValue body) ->
  exec (fetchWaitlist_resume (Fulfilled r)) w =
  {| state := {| entries := or_empty (data body);
                 loading := false;
                 error := error (state w) |};
     console := console w;
     requests := requests w |}.
Proof.
  intros H J. apply ok_true_iff in H.
  unfold_controller. rewrite H, J. reflexivity.
Qed.

Lemma resume_null_body (r : Response) (w : World) :
  is_2xx r -> json r = Fulfilled JsonNull ->
  exec (fetchWaitlist_resume (Fulfilled r)) w = caught null_data_TypeError w.
Proof.
  intros H J. apply ok_true_iff in H.
  unfold_controller. rewrite H, J. reflexivity.
Qed.

Lemma fetchWaitlist_seq (net : Settled Response) (w : World) :
  exec (fetchWaitlist net) w =
  exec (fetchWaitlist_resume net) (exec fetchWaitlist_start w).
Proof. reflexivity. Qed.

Lemma is_2xx_or_not (r : Response) : is_2xx r \/ non_2xx r.
Proof. unfold is_2xx, non_2xx. lia. Qed.

(** Every failing resumption goes through the [catch] block with some
    error. *)
Lemma resume_failure (net : Settled Response) (w : World) :
  ends_in_failure net ->
  exists err, exec (fetchWaitlist_resume net) w = caught err w.
Proof.
  intros [err | r H | r err J | r J].
  - exists err. apply resume_rejected.
  - eexists. apply resume_non_2xx, H.
  - destruct (is_2xx_or_not r) as [H | H].
    + exists err. apply resume_parse_error; assumption.
    + eexists. apply resume_non_2xx, H.
  - destruct (is_2xx_or_not r) as [H | H].
    + eexists. apply resume_null_body; assumption.
    + eexists. apply resume_non_2xx, H.
Qed.

(** Whatever the network answers, the resumption ends with
    [loading = false] and sends nothing. *)
Lemma resume_loading_requests (net : Settled Response) (w : World) :
  loading (state (exec (fetchWaitlist_resume net) w)) = false /\
  requests (exec (fetchWaitlist_resume net) w) = requests w.
Proof.
  destruct net as [r | err]; [| split; reflexivity].
  destruct (is_2xx_or_not r) as [H | H].
  - destruct (json r) as [[| body] | err] eqn:J.
    + rewrite (resume_null_body r w H J). split; reflexivity.
    + rewrite (resume_success r body w H J). split; reflexivity.
    + rewrite (resume_parse_error r err w H J). split; reflexivity.
  - rewrite (resume_non_2xx r w H). split; reflexivity.
Qed.

(** ** Derived stats *)

Lemma filter_role_count (r : string) (l : list WaitlistEntry) :
  length (filter (fun e => role e =? r) l) = count_role r l.
Proof.
  induction l as [| e rest IH]; simpl; [reflexivity |].
  destruct (String.eqb_spec (role e) r) as [E | N];
    destruct (string_dec (role e) r) as [E' | N']; try contradiction.
  - simpl. now rewrite IH.
  - exact IH.
Qed.

Lemma count_role_app (r : string) (l1 l2 : list WaitlistEntry) :
  count_role r (l1 ++ l2) = count_role r l1 + count_role r l2.
Proof.
  induction l1 as [| e rest IH]; simpl; [reflexivity |].
  destruct (string_dec (role e) r); simpl; now rewrite IH.
Qed.

(** C1. For every list of entries, [stats] has [total] equal to the number
    of entries, [eventPlanners] equal to the number of entries whose role is
    "event-planner" and [vendors] equal to the number whose role is
    "vendor". For three entries with roles event-planner, vendor, vendor
    (whatever their other fields, and also when they arrive through a
    successful fetch), the stats are total 3, eventPlanners 1, vendors 2. *)
Theorem C1_stats_counts :
  (forall l : list WaitlistEntry,
      total (stats l) = length l /\
      eventPlanners (stats l) = count_role "event-planner" l /\
      vendors (stats l) = count_role "vendor" l) /\
  (forall (n1 n2 n3 e1 e2 e3 o1 o2 o3 c1 c2 c3 : string) (w : World),
      let l := [mkEntry 1 n1 e1 o1 "event-planner" c1;
                mkEntry 2 n2 e2 o2 "vendor" c2;
                mkEntry 3 n3 e3 o3 "vendor" c3] in
      let net := Fulfilled (mkResponse 200 (Fulfilled (JsonValue (mkBody (Value l))))) in
      stats l = mkStats 3 1 2 /\
      stats (entries (state (exec (fetchWaitlist net) w))) = mkStats 3 1 2).
Proof.
  split.
  - intros l. unfold stats; simpl. rewrite !filter_role_count. auto.
  - intros. split; reflexivity.
Qed.

(** ** Failure *)

(** C2. When an invocation of [fetchWaitlist] ends in failure (the request
    is rejected, the status is not 2xx, or the body does not parse; a body
    that parses to [null] fails in the same way), the state it leaves has
    an error message, [loading = false], and the entries it had before the
    invocation. *)
Theorem C2_failure_keeps_entries (w : World) (net : Settled Response) :
  ends_in_failure net ->
  let s' := state (exec (fetchWaitlist net) w) in
  (exists msg, error s' = Some msg) /\
  loading s' = false /\
  entries s' = entries (state w).
Proof.
  intros F. rewrite fetchWaitlist_seq.
  destruct (resume_failure net (exec fetchWaitlist_start w) F) as [err ->].
  simpl. repeat split. exists (message err). reflexivity.
Qed.

Lemma C2_failure_keeps_entries_witness :
  let w := {| state := {| entries := [sample_entry 1 "vendor"];
                          loading := false; error := None |};
              console := []; requests := [waitlist_url] |} in
  let net := Fulfilled (mkResponse 500 (Rejected (Error "Unexpected token <"))) in
  ends_in_failure net /\
  (exists msg, error (state (exec (fetchWaitlist net) w)) = Some msg) /\
  loading (state (exec (fetchWaitlist net) w)) = false /\
  entries (state (exec (fetchWaitlist net) w)) = [sample_entry 1 "vendor"].
Proof.
  intros w net.
  assert (F : ends_in_failure net).
  { apply fail_status. unfold non_2xx; simpl. lia. }
  split; [exact F |].
  exact (C2_failure_keeps_entries w net F).
Defined.

(** C7. An invocation that receives a non-2xx response ends as one and
    the same failure, whatever the status code and the body: the error is
    "Failed to fetch waitlist", [loading] is [false], the entries are kept,
    one console line with that error is written. So two such invocations
    from the same world leave the same world behind, and the view rendered
    from either is the page over the entries held before with the error box
    showing that fixed message. *)
Theorem C7_non_2xx_uniform (formatDate : string -> string) (w : World)
    (r1 r2 : Response) :
  non_2xx r1 -> non_2xx r2 ->
  let failed :=
    {| state := {| entries := entries (state w);
                   loading := false;
                   error := Some "Failed to fetch waitlist" |};
       console := console w ++
                  [("Error fetching waitlist:", Error "Failed to fetch waitlist")];
       requests := requests w ++ [waitlist_url] |} in
  exec (fetchWaitlist (Fulfilled r1)) w = failed /\
  exec (fetchWaitlist (Fulfilled r2)) w = failed /\
  exec (fetchWaitlist (Fulfilled r1)) w = exec (fetchWaitlist (Fulfilled r2)) w /\
  render formatDate (state (exec (fetchWaitlist (Fulfilled r1)) w)) =
  render formatDate (state (exec (fetchWaitlist (Fulfilled r2)) w)) /\
  render formatDate (state (exec (fetchWaitlist (Fulfilled r1)) w)) =
  Dashboard (stats (entries (state w)))
    (Some {| banner_message := "Failed to fetch waitlist";
             banner_button := TryAgain |})
    Refresh (table_body formatDate (entries (state w))).
Proof.
  intros H1 H2 failed. subst failed.
  rewrite !fetchWaitlist_seq.
  rewrite (resume_non_2xx r1 _ H1), (resume_non_2xx r2 _ H2).
  repeat split.
Qed.

Lemma C7_non_2xx_uniform_witness :
  let w := {| state := initial_state; console := []; requests := [] |} in
  let r1 := mkResponse 500 (Rejected (Error "Unexpected token <")) in
  let r2 := mkResponse 404
              (Fulfilled (JsonValue (mkBody (Value [sample_entry 7 "vendor"])))) in
  status r1 <> status r2 /\ json r1 <> json r2 /\
  non_2xx r1 /\ non_2xx r2 /\
  error (state (exec (fetchWaitlist (Fulfilled r1)) w)) =
    Some "Failed to fetch waitlist" /\
  exec (fetchWaitlist (Fulfilled r1)) w = exec (fetchWaitlist (Fulfilled r2)) w /\
  render sample_formatDate (state (exec (fetchWaitlist (Fulfilled r1)) w)) =
  render sample_formatDate (state (exec (fetchWaitlist (Fulfilled r2)) w)).
Proof.
  intros w r1 r2.
  assert (H1 : non_2xx r1) by (unfold non_2xx; simpl; lia).
  assert (H2 : non_2xx r2) by (unfold non_2xx; simpl; lia).
  destruct (C7_non_2xx_uniform sample_formatDate w r1 r2 H1 H2)
    as (F1 & _ & E & V & _).
  split; [simpl; lia |].
  split; [simpl; discriminate |].
  split; [exact H1 |]. split; [exact H2 |].
  split; [rewrite F1; reflexivity |].
  split; [exact E | exact V].
Defined.

(** C10, as stated, fails in its second half: a 200 response whose body
    is the JSON text [null] leaves an exception-derived message that is not
    the fixed string, although neither [fetch] nor [response.json()] was
    rejected (reading [data] of the parsed [null] throws). *)
Lemma C10_null_body_message :
  let w := {| state := initial_state; console := []; requests := [] |} in
  let r := mkResponse 200 (Fulfilled JsonNull) in
  is_2xx r /\
  (forall err, json r <> Rejected err) /\
  error (state (exec (fetchWaitlist (Fulfilled r)) w)) =
    Some (message null_data_TypeError) /\
  message null_data_TypeError <> "Failed to fetch waitlist".
Proof.
  intros w r.
  split; [unfold is_2xx; simpl; lia |].
  split; [intros err; discriminate |].
  split; [reflexivity | discriminate].
Qed.

(** C10 (amended). After a non-2xx response the error is exactly the
    string "Failed to fetch waitlist", whatever the status and the body.
    Whenever an invocation leaves any other message, that message is the
    [message] of an exception: the rejection of [fetch] (network), the
    rejection of [response.json()] (parse), or the [TypeError] raised by
    reading [data] of a 2xx response's body that parsed to [null]. *)
Theorem C10_non_2xx_fixed_message (w : World) :
  (forall r : Response,
      non_2xx r ->
      error (state (exec (fetchWaitlist (Fulfilled r)) w)) =
      Some "Failed to fetch waitlist") /\
  (forall (net : Settled Response) (msg : string),
      error (state (exec (fetchWaitlist net) w)) = Some msg ->
      msg <> "Failed to fetch waitlist" ->
      exists err, msg = message err /\
        (net = Rejected err \/
         (exists r, net = Fulfilled r /\ is_2xx r /\ json r = Rejected err) \/
         (exists r, net = Fulfilled r /\ is_2xx r /\
                    json r = Fulfilled JsonNull /\ err = null_data_TypeError))).
Proof.
  split.
  - intros r H. rewrite fetchWaitlist_seq, (resume_non_2xx r _ H). reflexivity.
  - intros net msg E N. rewrite fetchWaitlist_seq in E.
    destruct net as [r | err].
    + destruct (is_2xx_or_not r) as [H | H].
      * destruct (json r) as [[| body] | err] eqn:J.
        -- rewrite (resume_null_body r _ H J) in E. simpl in E.
           injection E as <-. exists null_data_TypeError.
           split; [reflexivity |]. right; right. exists r. auto.
        -- rewrite (resume_success r body _ H J) in E. discriminate E.
        -- rewrite (resume_parse_error r err _ H J) in E. simpl in E.
           injection E as <-. exists err. split; [reflexivity |].
           right; left. exists r. auto.
      * rewrite (resume_non_2xx r _ H) in E. simpl in E.
        injection E as <-. contradiction N. reflexivity.
    + rewrite resume_rejected in E. simpl in E. injection E as <-.
      exists err. auto.
Qed.

Lemma C10_non_2xx_fixed_message_witness :
  let w := {| state := initial_state; console := []; requests := [] |} in
  let r := mkResponse 503 (Fulfilled (JsonValue (mkBody Null))) in
  let net : Settled Response :=
    Rejected (Error "NetworkError when attempting to fetch resource.") in
  non_2xx r /\
  error (state (exec (fetchWaitlist (Fulfilled r)) w)) =
    Some "Failed to fetch waitlist" /\
  exists err, "NetworkError when attempting to fetch resource." = message err /\
    (net = Rejected err \/
     (exists r', net = Fulfilled r' /\ is_2xx r' /\ json r' = Rejected err) \/
     (exists r', net = Fulfilled r' /\ is_2xx r' /\
                 json r' = Fulfilled JsonNull /\ err = null_data_TypeError)).
Proof.
  intros w r net.
  assert (H : non_2xx r) by (unfold non_2xx; simpl; lia).
  split; [exact H |].
  split; [exact (proj1 (C10_non_2xx_fixed_message w) r H) |].
  apply (proj2 (C10_non_2xx_fixed_message w) net).
  - reflexivity.
  - discriminate.
Defined.

(** ** Success and the shape of one invocation *)

(** C5. An invocation of [fetchWaitlist] is its synchronous start followed
    by its resumption. After the start, [loading] is [true] and [error] is
    [null] (whatever the error was before) and the entries are untouched;
    after the resumption [loading] is [false], for every answer of the
    network and from every intermediate world; and after a 2xx response
    with a parsed body (other than [null]) the entries are the response's
    data (the empty list when it has none), whatever they were before, and
    no error is set. *)
Theorem C5_fetchWaitlist_lifecycle (w : World) (net : Settled Response) :
  let started := exec fetchWaitlist_start w in
  let finished := exec (fetchWaitlist net) w in
  finished = exec (fetchWaitlist_resume net) started /\
  loading (state started) = true /\
  error (state started) = None /\
  entries (state started) = entries (state w) /\
  loading (state finished) = false /\
  (forall w', loading (state (exec (fetchWaitlist_resume net) w')) = false) /\
  (forall r body,
      net = Fulfilled r -> is_2xx r -> json r = Fulfilled (JsonValue body) ->
      entries (state finished) = or_empty (data body) /\
      error (state finished) = None).
Proof.
  intros started finished. subst started finished.
  split; [apply fetchWaitlist_seq |].
  split; [reflexivity |]. split; [reflexivity |]. split; [reflexivity |].
  split; [rewrite fetchWaitlist_seq; apply resume_loading_requests |].
  split; [intros w'; apply resume_loading_requests |].
  intros r body -> H J.
  rewrite fetchWaitlist_seq, (resume_success r body _ H J).
  split; reflexivity.
Qed.

Lemma C5_fetchWaitlist_lifecycle_witness :
  let w := {| state := {| entries := [sample_entry 9 "vendor"];
                          loading := false;
                          error := Some "Failed to fetch waitlist" |};
              console := []; requests := [waitlist_url] |} in
  let fresh := [sample_entry 1 "event-planner"; sample_entry 2 "vendor"] in
  let r := mkResponse 200 (Fulfilled (JsonValue (mkBody (Value fresh)))) in
  is_2xx r /\
  error (state (exec fetchWaitlist_start w)) = None /\
  entries (state (exec (fetchWaitlist (Fulfilled r)) w)) = fresh /\
  error (state (exec (fetchWaitlist (Fulfilled r)) w)) = None.
Proof.
  intros w fresh r.
  assert (H : is_2xx r) by (unfold is_2xx; simpl; lia).
  pose proof (C5_fetchWaitlist_lifecycle w (Fulfilled r)) as L.
  destruct L as (_ & _ & E & _ & _ & _ & S).
  destruct (S r (mkBody (Value fresh)) eq_refl H eq_refl) as [S1 S2].
  split; [exact H |]. split; [exact E |]. split; [exact S1 | exact S2].
Defined.

(** C4, as stated, fails: a 200 response whose body is the JSON text
    [null] parses, yet the entries are neither its data nor emptied. The
    entries loaded before stay, an error is set, and the view is not the
    empty-state placeholder. *)
Lemma C4_null_body_keeps_entries :
  let w := {| state := {| entries := [sample_entry 9 "vendor"];
                          loading := false; error := None |};
              console := []; requests := [waitlist_url] |} in
  let r := mkResponse 200 (Fulfilled JsonNull) in
  let s' := state (exec (fetchWaitlist (Fulfilled r)) w) in
  is_2xx r /\
  json r = Fulfilled JsonNull /\
  entries s' = [sample_entry 9 "vendor"] /\
  entries s' <> [] /\
  error s' = Some (message null_data_TypeError) /\
  shows_empty_state (render sample_formatDate s') = false.
Proof.
  intros w r s'.
  split; [unfold is_2xx; simpl; lia |].
  split; [reflexivity |]. split; [reflexivity |].
  split; [discriminate |]. split; reflexivity.
Qed.

(** C4 (amended). After a 2xx response whose body parses to a value other
    than [null], the entries are the body's [data] field when it holds an
    array; when the field is absent or [null] the entries are the empty
    list, and the view is the page with the empty-state placeholder (all
    stats zero, no error box). After a 2xx response whose body parses to
    [null], reading [data] throws: the entries are kept, the error is the
    exception's message and [loading] is [false]. *)
Theorem C4_success_sets_entries (formatDate : string -> string) (w : World)
    (r : Response) :
  is_2xx r ->
  let s' := state (exec (fetchWaitlist (Fulfilled r)) w) in
  (forall body, json r = Fulfilled (JsonValue body) ->
     (forall l, data body = Value l -> entries s' = l) /\
     (data body = Undefined \/ data body = Null ->
      entries s' = [] /\
      shows_empty_state (render formatDate s') = true /\
      render formatDate s' = Dashboard (mkStats 0 0 0) None Refresh EmptyState)) /\
  (json r = Fulfilled JsonNull ->
     entries s' = entries (state w) /\
     error s' = Some (message null_data_TypeError) /\
     loading s' = false).
Proof.
  intros H s'. subst s'. rewrite fetchWaitlist_seq. split.
  - intros body J. rewrite (resume_success r body _ H J). split.
    + intros l D. simpl. now rewrite D.
    + intros D. unfold render; simpl.
      assert (E : or_empty (data body) = [])
        by (destruct D as [-> | ->]; reflexivity).
      rewrite E. repeat split.
  - intros J. rewrite (resume_null_body r _ H J). repeat split.
Qed.

Lemma C4_success_sets_entries_witness :
  let w := {| state := {| entries := [sample_entry 9 "vendor"];
                          loading := false; error := None |};
              console := []; requests := [waitlist_url] |} in
  let r := mkResponse 200 (Fulfilled (JsonValue (mkBody Null))) in
  is_2xx r /\
  entries (state (exec (fetchWaitlist (Fulfilled r)) w)) = [] /\
  shows_empty_state
    (render sample_formatDate (state (exec (fetchWaitlist (Fulfilled r)) w))) = true.
Proof.
  intros w r.
  assert (H : is_2xx r) by (unfold is_2xx; simpl; lia).
  destruct (C4_success_sets_entries sample_formatDate w r H) as [B _].
  destruct (B (mkBody Null) eq_refl) as [_ N].
  destruct (N (or_intror eq_refl)) as (E & S & _).
  split; [exact H |]. split; [exact E | exact S].
Defined.

(** ** The view *)

(** C3, as stated, fails: after a successful load, a refresh answered with
    HTTP 500 leaves a state whose view has the error box together with the
    stats cards and the table. (And an error that is the empty string,
    though not [null], shows no error box.) *)
Lemma C3_banner_shown_with_table :
  let page := Fulfilled (mkResponse 200
                (Fulfilled (JsonValue (mkBody (Value [sample_entry 1 "vendor"]))))) in
  let broken := Fulfilled (mkResponse 500 (Rejected (Error "Unexpected token <"))) in
  (exists c,
      run sample_formatDate [Settle page; Click Refresh; Settle broken] mount = Some c /\
      state (world c) = {| entries := [sample_entry 1 "vendor"];
                           loading := false;
                           error := Some "Failed to fetch waitlist" |} /\
      let v := render sample_formatDate (state (world c)) in
      shows_error_banner v = true /\
      shows_stats_and_table v = true /\
      three_exclusive_views v = false) /\
  shows_error_banner
    (render sample_formatDate
       {| entries := []; loading := false; error := Some "" |}) = false.
Proof.
  intros page broken. split; [| reflexivity].
  eexists. split; [reflexivity |].
  repeat split.
Qed.

(** C3 (amended). While [loading] is [true] the view is the spinner and
    nothing else. Otherwise the view is the page with the stats cards and
    the entries card, and that page also carries the error box with its
    "Try Again" button exactly when [error] is a non-empty string. So the
    spinner excludes the other two, and the error box is always shown
    together with the stats and the table. *)
Theorem C3_views (formatDate : string -> string) (s : State) :
  (loading s = true ->
   render formatDate s = Spinner /\
   shows_error_banner (render formatDate s) = false /\
   shows_stats_and_table (render formatDate s) = false) /\
  (loading s = false ->
   shows_spinner (render formatDate s) = false /\
   shows_stats_and_table (render formatDate s) = true /\
   (shows_error_banner (render formatDate s) = true <->
    exists msg, error s = Some msg /\ msg <> "") /\
   (shows_error_banner (render formatDate s) = true ->
    In TryAgain (actions (render formatDate s)))).
Proof.
  unfold render. split; intros L; rewrite L; simpl.
  - repeat split.
  - split; [reflexivity |]. split; [reflexivity |].
    destruct (error s) as [msg |]; simpl.
    + destruct (String.eqb_spec msg "") as [E | N]; simpl.
      * split; [| discriminate]. split; [discriminate |].
        intros (m & M & Hm). injection M as <-. contradiction.
      * split; [| auto]. split; [| reflexivity].
        intros _. exists msg. auto.
    + split; [| discriminate]. split; [discriminate |].
      intros (m & M & _). discriminate M.
Qed.

Lemma C3_views_witness :
  let s := {| entries := []; loading := false;
              error := Some "Failed to fetch waitlist" |} in
  loading s = false /\
  shows_stats_and_table (render sample_formatDate s) = true /\
  shows_error_banner (render sample_formatDate s) = true /\
  In TryAgain (actions (render sample_formatDate s)).
Proof.
  intros s.
  destruct (proj2 (C3_views sample_formatDate s) eq_refl) as (_ & T & B & A).
  assert (Hb : shows_error_banner (render sample_formatDate s) = true).
  { apply B. exists "Failed to fetch waitlist". split; [reflexivity | discriminate]. }
  split; [reflexivity |]. split; [exact T |]. split; [exact Hb | exact (A Hb)].
Defined.

Lemma role_label_other (r : string) :
  r <> "event-planner" -> role_label r = "Vendor".
Proof.
  intros N. unfold role_label.
  destruct (String.eqb_spec r "event-planner"); [contradiction | reflexivity].
Qed.

Lemma count_role_other (r : string) (e : WaitlistEntry) (l1 l2 : list WaitlistEntry) :
  role e <> r -> count_role r (l1 ++ e :: l2) = count_role r (l1 ++ l2).
Proof.
  intros N. rewrite !count_role_app. simpl.
  destruct (string_dec (role e) r); [contradiction | reflexivity].
Qed.

Lemma table_rows_render (formatDate : string -> string) (s : State) :
  loading s = false ->
  table_rows (render formatDate s) = map (render_row formatDate) (entries s).
Proof.
  intros L. unfold render, table_body. rewrite L.
  destruct (entries s); reflexivity.
Qed.

(** C6. An entry whose role is neither "event-planner" nor "vendor" adds
    one to [total] and nothing to [eventPlanners] or [vendors]; in the
    table it has a row of its own, at its position, and the label of that
    row is "Vendor". The stats cards of the page are [stats] of the
    entries: two states with the same entries show the same cards,
    whatever their errors. *)
Theorem C6_other_role (formatDate : string -> string)
    (l1 l2 : list WaitlistEntry) (e : WaitlistEntry) :
  role e <> "event-planner" -> role e <> "vendor" ->
  let l := l1 ++ e :: l2 in
  total (stats l) = S (total (stats (l1 ++ l2))) /\
  eventPlanners (stats l) = eventPlanners (stats (l1 ++ l2)) /\
  vendors (stats l) = vendors (stats (l1 ++ l2)) /\
  (forall err,
      nth_error (table_rows (render formatDate (mkState l false err))) (length l1) =
      Some (render_row formatDate e)) /\
  row_label (render_row formatDate e) = "Vendor" /\
  (forall err1 err2,
      cards_of (render formatDate (mkState l false err1)) = Some (stats l) /\
      cards_of (render formatDate (mkState l false err2)) = Some (stats l)).
Proof.
  intros NP NV l. subst l.
  split; [unfold stats; simpl; rewrite !length_app; simpl; lia |].
  split.
  { unfold stats; simpl. rewrite !filter_role_count.
    apply count_role_other, NP. }
  split.
  { unfold stats; simpl. rewrite !filter_role_count.
    apply count_role_other, NV. }
  split.
  { intros err. rewrite table_rows_render by reflexivity. simpl.
    rewrite nth_error_map, nth_error_app2 by lia.
    rewrite Nat.sub_diag. reflexivity. }
  split; [apply role_label_other, NP |].
  intros err1 err2. split; reflexivity.
Qed.

Lemma C6_other_role_witness :
  let e := sample_entry 2 "caterer" in
  let l := [sample_entry 1 "event-planner"; e; sample_entry 3 "vendor"] in
  role e <> "event-planner" /\ role e <> "vendor" /\
  stats l = mkStats 3 1 1 /\
  row_label (render_row sample_formatDate e) = "Vendor".
Proof.
  intros e l.
  assert (NP : role e <> "event-planner") by discriminate.
  assert (NV : role e <> "vendor") by discriminate.
  pose proof (C6_other_role sample_formatDate
                [sample_entry 1 "event-planner"] [sample_entry 3 "vendor"] e NP NV)
    as (_ & _ & _ & _ & V & _).
  split; [exact NP |]. split; [exact NV |]. split; [reflexivity | exact V].
Defined.

(** ** Life cycle *)

Lemma useEffect_settled (c : Instance) :
  effect_deps c = Some [] ->
  world (useEffect c) = world c /\
  in_flight (useEffect c) = in_flight c /\
  effect_deps (useEffect c) = Some [].
Proof.
  intros D. unfold useEffect, deps_changed. rewrite D. simpl.
  repeat split.
Qed.

Lemma mount_deps : effect_deps mount = Some [].
Proof. reflexivity. Qed.

(** The screen of the created instance is the render of its state. *)
Lemma created_screen (formatDate : string -> string) :
  screen created = render formatDate (state (world created)).
Proof. reflexivity. Qed.

(** Once the effect has run, a commit only replaces the screen. *)
Lemma commit_settled (formatDate : string -> string) (c : Instance) :
  effect_deps c = Some [] ->
  commit formatDate c =
  {| world := world c;
     in_flight := in_flight c;
     effect_deps := Some [];
     screen := render formatDate (state (world c)) |}.
Proof.
  intros D. unfold commit, useEffect, deps_changed. simpl. rewrite D.
  reflexivity.
Qed.

Lemma step_click_inv (formatDate : string -> string) (a : Action)
    (c c' : Instance) :
  step formatDate (Click a) c = Some c' ->
  In a (actions (screen c)) /\ c' = call_fetchWaitlist c.
Proof.
  cbn [step]. destruct (existsb _ _) eqn:B; [| discriminate].
  intros S. injection S as <-. split; [| reflexivity].
  apply existsb_exists in B as (b & I & E).
  destruct a, b; try discriminate E; exact I.
Qed.

Lemma step_settle_inv (formatDate : string -> string) (net : Settled Response)
    (c c' : Instance) :
  step formatDate (Settle net) c = Some c' ->
  exists n,
    in_flight c = S n /\
    c' = commit formatDate
           {| world := exec (fetchWaitlist_resume net) (world c);
              in_flight := n;
              effect_deps := effect_deps c;
              screen := screen c |}.
Proof.
  cbn [step]. destruct (in_flight c) as [| n]; [discriminate |].
  intros S. injection S as <-. eauto.
Qed.

(** One event of a mounted component: a click sends one request, a settled
    answer and a re-render send none; either way the effect does not run
    again. *)
Lemma step_requests (formatDate : string -> string) (ev : Event)
    (c c' : Instance) :
  effect_deps c = Some [] ->
  step formatDate ev c = Some c' ->
  effect_deps c' = Some [] /\
  requests (world c') =
    if is_click ev then requests (world c) ++ [waitlist_url]
    else requests (world c).
Proof.
  intros D S. destruct ev as [a | net |].
  - apply step_click_inv in S as [_ ->]. split; [exact D | reflexivity].
  - apply step_settle_inv in S as (n & _ & ->).
    rewrite commit_settled by exact D. simpl.
    split; [reflexivity | apply resume_loading_requests].
  - cbn [step] in S. injection S as <-.
    rewrite commit_settled by exact D. split; reflexivity.
Qed.

Lemma run_requests (formatDate : string -> string) (evs : list Event) :
  forall c c',
    effect_deps c = Some [] ->
    run formatDate evs c = Some c' ->
    effect_deps c' = Some [] /\
    requests (world c') =
      requests (world c) ++ repeat waitlist_url (length (filter is_click evs)).
Proof.
  induction evs as [| ev rest IH]; intros c c' D R; simpl in R.
  - injection R as <-. split; [exact D |]. simpl. now rewrite app_nil_r.
  - destruct (step formatDate ev c) as [c1 |] eqn:S; [| discriminate R].
    destruct (step_requests formatDate ev c c1 D S) as [D1 Q1].
    destruct (IH c1 c' D1 R) as [D' Q'].
    split; [exact D' |]. rewrite Q', Q1. simpl.
    destruct (is_click ev); simpl; [| reflexivity].
    now rewrite <- app_assoc.
Qed.

(** C8. The first render sends nothing; mounting sends exactly one request,
    to the waitlist endpoint, before any event. After any sequence of
    events of the mounted component, the requests sent are that one plus
    one per click on "Refresh" or "Try Again": a settled answer and the
    re-renders send none. *)
Theorem C8_one_fetch_on_mount (formatDate : string -> string)
    (evs : list Event) (c : Instance) :
  run formatDate evs mount = Some c ->
  requests (world created) = [] /\
  requests (world mount) = [waitlist_url] /\
  requests (world c) =
    waitlist_url :: repeat waitlist_url (length (filter is_click evs)) /\
  length (requests (world c)) = 1 + length (filter is_click evs) /\
  (forall net c',
      step formatDate (Settle net) c = Some c' ->
      requests (world c') = requests (world c)).
Proof.
  intros R.
  destruct (run_requests formatDate evs mount c mount_deps R) as [D Q].
  split; [reflexivity |]. split; [reflexivity |].
  split; [exact Q |].
  split; [rewrite Q; simpl; now rewrite repeat_length |].
  intros net c' S.
  exact (proj2 (step_requests formatDate (Settle net) c c' D S)).
Qed.

Lemma C8_one_fetch_on_mount_witness :
  let page := Fulfilled (mkResponse 200
                (Fulfilled (JsonValue (mkBody (Value [sample_entry 1 "vendor"]))))) in
  let broken := Fulfilled (mkResponse 500 (Rejected (Error "Unexpected token <"))) in
  let evs := [Settle page; Click Refresh; Settle broken; Click TryAgain] in
  exists c,
    run sample_formatDate evs mount = Some c /\
    length (requests (world c)) = 3.
Proof.
  intros page broken evs.
  destruct (run sample_formatDate evs mount) as [c |] eqn:R;
    [| vm_compute in R; discriminate R].
  exists c. split; [reflexivity |].
  exact (proj1 (proj2 (proj2 (proj2
           (C8_one_fetch_on_mount sample_formatDate evs c R))))).
Defined.

(** While the spinner is on screen no button is, so no click can
    happen. *)
Lemma no_click_on_spinner (formatDate : string -> string) (a : Action)
    (c : Instance) :
  screen c = Spinner -> step formatDate (Click a) c = None.
Proof.
  intros L. cbn [step]. rewrite L. reflexivity.
Qed.

(** Before the first answer nothing moves: no click is possible and a
    re-render changes nothing. *)
Lemma run_before_answer (formatDate : string -> string) (evs : list Event) :
  forall c,
    run formatDate evs mount = Some c ->
    forallb (fun ev => negb (is_settle ev)) evs = true ->
    c = mount.
Proof.
  induction evs as [| ev rest IH]; intros c R N.
  - injection R as <-. reflexivity.
  - cbn [run] in R. destruct ev as [a | net |].
    + rewrite (no_click_on_spinner formatDate a mount eq_refl) in R.
      discriminate R.
    + discriminate N.
    + change (step formatDate Render mount) with (Some mount) in R.
      exact (IH c R N).
Qed.

(** C9. The component is created with [loading = true], [error = null]
    and no entries, and its first render is the spinner. Until an answer
    of the network has been handled, every state the mounted component can
    reach renders as the spinner: neither the error box nor the empty-state
    placeholder is on screen. *)
Theorem C9_spinner_until_first_answer (formatDate : string -> string)
    (evs : list Event) (c : Instance) :
  run formatDate evs mount = Some c ->
  forallb (fun ev => negb (is_settle ev)) evs = true ->
  initial_state = {| entries := []; loading := true; error := None |} /\
  state (world created) = initial_state /\
  render formatDate initial_state = Spinner /\
  render formatDate (state (world c)) = Spinner /\
  shows_error_banner (render formatDate (state (world c))) = false /\
  shows_empty_state (render formatDate (state (world c))) = false.
Proof.
  intros R N.
  split; [reflexivity |]. split; [reflexivity |]. split; [reflexivity |].
  rewrite (run_before_answer formatDate evs c R N). repeat split.
Qed.

Lemma C9_spinner_until_first_answer_witness :
  render sample_formatDate (state (world mount)) = Spinner /\
  shows_error_banner (render sample_formatDate (state (world mount))) = false /\
  shows_empty_state (render sample_formatDate (state (world mount))) = false.
Proof.
  exact (proj2 (proj2 (proj2
    (C9_spinner_until_first_answer sample_formatDate [] mount eq_refl eq_refl)))).
Defined.

(** * Further properties of the component *)

(** ** Stats *)

Lemma count_role_perm (r : string) (l l' : list WaitlistEntry) :
  Permutation l l' -> count_role r l = count_role r l'.
Proof.
  induction 1 as [| e l l' _ IH | e1 e2 l | l1 l2 l3 _ IH1 _ IH2]; simpl.
  - reflexivity.
  - now rewrite IH.
  - destruct (string_dec (role e1) r), (string_dec (role e2) r); reflexivity.
  - now rewrite IH1.
Qed.

Lemma other_role_none (l : list WaitlistEntry) :
  length (filter other_role l) = 0 <->
  Forall (fun e => role e = "event-planner" \/ role e = "vendor") l.
Proof.
  induction l as [| e rest IH]; simpl.
  - split; [constructor | reflexivity].
  - unfold other_role at 1.
    destruct (String.eqb_spec (role e) "event-planner") as [P | P];
      destruct (String.eqb_spec (role e) "vendor") as [V | V]; simpl.
    + rewrite IH. split; [constructor; auto | now inversion 1].
    + rewrite IH. split; [constructor; auto | now inversion 1].
    + rewrite IH. split; [constructor; auto | now inversion 1].
    + split; [discriminate |].
      inversion 1 as [| ? ? [E | E] _]; contradiction.
Qed.

Lemma stats_accounting (l : list WaitlistEntry) :
  eventPlanners (stats l) + vendors (stats l) + length (filter other_role l) =
    total (stats l).
Proof.
  unfold stats; simpl. induction l as [| e rest IH]; simpl; [reflexivity |].
  unfold other_role at 1.
  destruct (String.eqb_spec (role e) "event-planner") as [P | P];
    destruct (String.eqb_spec (role e) "vendor") as [V | V]; simpl; try lia.
  rewrite P in V. discriminate V.
Qed.

(** X1. The three cards account for every entry: [eventPlanners] plus
    [vendors] plus the number of entries with any other role is [total].
    So the two role cards never add up to more than the total, and they add
    up to exactly the total when, and only when, every entry's role is
    "event-planner" or "vendor". *)
Theorem X1_stats_accounting (l : list WaitlistEntry) :
  eventPlanners (stats l) + vendors (stats l) + length (filter other_role l) =
    total (stats l) /\
  eventPlanners (stats l) + vendors (stats l) <= total (stats l) /\
  (eventPlanners (stats l) + vendors (stats l) = total (stats l) <->
   Forall (fun e => role e = "event-planner" \/ role e = "vendor") l).
Proof.
  pose proof (stats_accounting l) as A.
  split; [exact A |]. split; [lia |].
  rewrite <- other_role_none. lia.
Qed.

(** X2. The stats do not depend on the order in which the server lists
    the entries: two lists that are permutations of each other have the
    same three counts. *)
Theorem X2_stats_order_independent (l l' : list WaitlistEntry) :
  Permutation l l' -> stats l = stats l'.
Proof.
  intros P. unfold stats. rewrite !filter_role_count.
  rewrite (Permutation_length P).
  rewrite (count_role_perm "event-planner" l l' P).
  rewrite (count_role_perm "vendor" l l' P).
  reflexivity.
Qed.

Lemma X2_stats_order_independent_witness :
  let a := sample_entry 1 "event-planner" in
  let b := sample_entry 2 "vendor" in
  let c := sample_entry 3 "caterer" in
  Permutation [a; b; c] [c; a; b] /\ stats [a; b; c] = stats [c; a; b].
Proof.
  intros a b c.
  assert (P : Permutation [a; b; c] [c; a; b]).
  { apply Permutation_sym. change [c; a; b] with ([c] ++ [a; b]).
    change [a; b; c] with ([a; b] ++ [c]). apply Permutation_app_comm. }
  split; [exact P | exact (X2_stats_order_independent _ _ P)].
Defined.

(** ** The table *)

Lemma count_label_event_planner (formatDate : string -> string)
    (l : list WaitlistEntry) :
  count_label "Event Planner" (map (render_row formatDate) l) =
  count_role "event-planner" l.
Proof.
  unfold count_label.
  induction l as [| e rest IH]; simpl; [reflexivity |].
  unfold role_label at 1.
  destruct (String.eqb_spec (role e) "event-planner") as [P | P];
    destruct (string_dec (role e) "event-planner") as [P' | P'];
    try contradiction; simpl; now rewrite IH.
Qed.

Lemma count_label_two (formatDate : string -> string) (l : list WaitlistEntry) :
  count_label "Event Planner" (map (render_row formatDate) l) +
  count_label "Vendor" (map (render_row formatDate) l) = length l.
Proof.
  unfold count_label.
  induction l as [| e rest IH]; simpl; [reflexivity |].
  unfold role_label.
  destruct (String.eqb_spec (role e) "event-planner"); simpl; lia.
Qed.

(** X3. When the page is shown, the table has one row per entry, in the
    order of the entries: row [i] is the row of entry [i], the React keys
    are the entries' ids in order (distinct when the ids are), and the
    "Total Signups" card is the number of rows. *)
Theorem X3_rows_follow_entries (formatDate : string -> string) (s : State) :
  loading s = false ->
  let v := render formatDate s in
  (forall i, nth_error (table_rows v) i =
             option_map (render_row formatDate) (nth_error (entries s) i)) /\
  map row_key (table_rows v) = map id (entries s) /\
  (NoDup (map id (entries s)) -> NoDup (map row_key (table_rows v))) /\
  (forall cards, cards_of v = Some cards -> total cards = length (table_rows v)).
Proof.
  intros L v. subst v.
  rewrite (table_rows_render formatDate s L).
  assert (K : map row_key (map (render_row formatDate) (entries s)) =
              map id (entries s)).
  { rewrite map_map. reflexivity. }
  split; [intros i; apply nth_error_map |].
  split; [exact K |].
  split; [now rewrite K |].
  intros cards C. unfold render in C. rewrite L in C. simpl in C.
  injection C as <-. simpl. now rewrite length_map.
Qed.

Lemma X3_rows_follow_entries_witness :
  let s := {| entries := [sample_entry 4 "vendor"; sample_entry 2 "caterer"];
              loading := false; error := None |} in
  loading s = false /\
  map row_key (table_rows (render sample_formatDate s)) = [4; 2]%Z.
Proof.
  intros s. split; [reflexivity |].
  exact (proj1 (proj2 (X3_rows_follow_entries sample_formatDate s eq_refl))).
Defined.

(** X4. Every row is labelled "Event Planner" or "Vendor". The rows
    labelled "Event Planner" are as many as the "Event Planners" card
    says; the rows labelled "Vendor" are all the others, so they are at
    least as many as the "Vendors" card says, and exactly as many when,
    and only when, every role is "event-planner" or "vendor". *)
Theorem X4_labels_against_cards (formatDate : string -> string) (s : State) :
  loading s = false ->
  let rows := table_rows (render formatDate s) in
  let cards := stats (entries s) in
  (forall r, In r rows ->
      row_label r = "Event Planner" \/ row_label r = "Vendor") /\
  count_label "Event Planner" rows = eventPlanners cards /\
  count_label "Vendor" rows = total cards - eventPlanners cards /\
  vendors cards <= count_label "Vendor" rows /\
  (vendors cards = count_label "Vendor" rows <->
   Forall (fun e => role e = "event-planner" \/ role e = "vendor") (entries s)).
Proof.
  intros L rows cards. subst rows cards.
  rewrite (table_rows_render formatDate s L).
  pose proof (count_label_event_planner formatDate (entries s)) as EP.
  pose proof (count_label_two formatDate (entries s)) as Two.
  pose proof (stats_accounting (entries s)) as A.
  pose proof (other_role_none (entries s)) as I.
  assert (E : eventPlanners (stats (entries s)) =
              count_role "event-planner" (entries s)).
  { unfold stats; simpl. apply filter_role_count. }
  assert (T : total (stats (entries s)) = length (entries s)) by reflexivity.
  split.
  { intros r R. apply in_map_iff in R as (e & <- & _). simpl.
    unfold role_label. destruct (role e =? "event-planner"); auto. }
  split; [lia |]. split; [lia |]. split; [lia |].
  rewrite <- I. lia.
Qed.

Lemma X4_labels_against_cards_witness :
  let s := {| entries := [sample_entry 1 "event-planner";
                          sample_entry 2 "caterer";
                          sample_entry 3 "vendor"];
              loading := false; error := None |} in
  loading s = false /\
  vendors (stats (entries s)) = 1 /\
  count_label "Vendor" (table_rows (render sample_formatDate s)) = 2.
Proof.
  intros s.
  destruct (X4_labels_against_cards sample_formatDate s eq_refl)
    as (_ & _ & V & _).
  split; [reflexivity |]. split; [reflexivity | exact V].
Defined.

(** X5. The empty-state placeholder is on screen exactly when the
    component is not loading and has no entries; then there is no table
    row and the three cards all show zero. With at least one entry (and
    not loading) the table is shown instead. *)
Theorem X5_empty_state (formatDate : string -> string) (s : State) :
  (shows_empty_state (render formatDate s) = true <->
   loading s = false /\ entries s = []) /\
  (shows_empty_state (render formatDate s) = true ->
   table_rows (render formatDate s) = [] /\
   cards_of (render formatDate s) = Some (mkStats 0 0 0)) /\
  (loading s = false -> entries s <> [] ->
   exists cards banner,
     render formatDate s =
     Dashboard cards banner Refresh
       (Table (map (render_row formatDate) (entries s)))).
Proof.
  unfold render, table_body.
  destruct (loading s); simpl.
  - split; [split; [discriminate | intros [D _]; discriminate D] |].
    split; [discriminate | discriminate].
  - destruct (entries s) as [| e rest]; simpl.
    + split; [tauto |]. split; [auto |]. intros _ N. contradiction.
    + split; [split; [discriminate | intros [_ D]; discriminate D] |].
      split; [discriminate |]. intros _ _. eauto.
Qed.

(** ** The controller *)

(** X6. A failed invocation writes exactly one line to the console, with
    the label "Error fetching waitlist:" and the very error whose message
    it stores in [error]; a successful invocation (a 2xx response whose
    body parses to a value other than [null]) writes nothing. Neither
    removes or changes earlier lines. *)
Theorem X6_console_log (w : World) :
  (forall net, ends_in_failure net ->
     exists err,
       console (exec (fetchWaitlist net) w) =
         console w ++ [("Error fetching waitlist:", err)] /\
       error (state (exec (fetchWaitlist net) w)) = Some (message err)) /\
  (forall r body, is_2xx r -> json r = Fulfilled (JsonValue body) ->
     console (exec (fetchWaitlist (Fulfilled r)) w) = console w).
Proof.
  split.
  - intros net F. rewrite fetchWaitlist_seq.
    destruct (resume_failure net (exec fetchWaitlist_start w) F) as [err ->].
    exists err. split; reflexivity.
  - intros r body H J.
    rewrite fetchWaitlist_seq, (resume_success r body _ H J). reflexivity.
Qed.

Lemma X6_console_log_witness :
  let w := {| state := initial_state; console := []; requests := [] |} in
  let net : Settled Response := Rejected (Error "Failed to fetch") in
  ends_in_failure net /\
  exists err,
    console (exec (fetchWaitlist net) w) =
      console w ++ [("Error fetching waitlist:", err)] /\
    error (state (exec (fetchWaitlist net) w)) = Some (message err).
Proof.
  intros w net.
  assert (F : ends_in_failure net) by constructor.
  split; [exact F | exact (proj1 (X6_console_log w) net F)].
Defined.

(** X7. After a failed invocation the page still shows what was loaded
    before: the cards and the table body are those of the entries held
    before the invocation, and, when the error's message is not empty, the
    error box shows exactly that message with the "Try Again" button. *)
Theorem X7_failed_refresh_view (formatDate : string -> string) (w : World)
    (net : Settled Response) :
  ends_in_failure net ->
  exists err,
    error (state (exec (fetchWaitlist net) w)) = Some (message err) /\
    render formatDate (state (exec (fetchWaitlist net) w)) =
      Dashboard (stats (entries (state w)))
        (error_banner (Some (message err))) Refresh
        (table_body formatDate (entries (state w))) /\
    (message err <> "" ->
     error_banner (Some (message err)) =
       Some {| banner_message := message err; banner_button := TryAgain |}).
Proof.
  intros F. rewrite fetchWaitlist_seq.
  destruct (resume_failure net (exec fetchWaitlist_start w) F) as [err ->].
  exists err. split; [reflexivity |]. split; [reflexivity |].
  intros N. simpl.
  destruct (String.eqb_spec (message err) ""); [contradiction | reflexivity].
Qed.

Lemma X7_failed_refresh_view_witness :
  let w := {| state := {| entries := [sample_entry 1 "vendor"];
                          loading := false; error := None |};
              console := []; requests := [waitlist_url] |} in
  let net := Fulfilled (mkResponse 502 (Rejected (Error "Unexpected token <"))) in
  ends_in_failure net /\
  exists err,
    error (state (exec (fetchWaitlist net) w)) = Some (message err) /\
    render sample_formatDate (state (exec (fetchWaitlist net) w)) =
      Dashboard (stats (entries (state w)))
        (error_banner (Some (message err))) Refresh
        (table_body sample_formatDate (entries (state w))) /\
    (message err <> "" ->
     error_banner (Some (message err)) =
       Some {| banner_message := message err; banner_button := TryAgain |}).
Proof.
  intros w net.
  assert (F : ends_in_failure net).
  { apply fail_status. unfold non_2xx; simpl. lia. }
  split; [exact F | exact (X7_failed_refresh_view sample_formatDate w net F)].
Defined.

(** X8. Fetching again with the same answer changes nothing on screen:
    the state after two invocations answered alike is the state after one
    (only the request and console logs grow). *)
Theorem X8_refetch_idempotent (w : World) (net : Settled Response) :
  state (exec (fetchWaitlist net) (exec (fetchWaitlist net) w)) =
    state (exec (fetchWaitlist net) w) /\
  length (requests (exec (fetchWaitlist net) (exec (fetchWaitlist net) w))) =
    2 + length (requests w).
Proof.
  rewrite !fetchWaitlist_seq.
  destruct net as [r | err].
  - destruct (is_2xx_or_not r) as [H | H].
    + destruct (json r) as [[| body] | err] eqn:J.
      * rewrite !(resume_null_body r _ H J). simpl.
        rewrite !length_app. simpl. split; [reflexivity | lia].
      * rewrite !(resume_success r body _ H J). simpl.
        rewrite !length_app. simpl. split; [reflexivity | lia].
      * rewrite !(resume_parse_error r err _ H J). simpl.
        rewrite !length_app. simpl. split; [reflexivity | lia].
    + rewrite !(resume_non_2xx r _ H). simpl.
      rewrite !length_app. simpl. split; [reflexivity | lia].
  - rewrite !resume_rejected. simpl.
    rewrite !length_app. simpl. split; [reflexivity | lia].
Qed.

(** ** The mounted component *)

Lemma useEffect_entries (c : Instance) :
  entries (state (world (useEffect c))) = entries (state (world c)).
Proof.
  unfold useEffect. destruct (deps_changed _ _); reflexivity.
Qed.

Lemma mount_inv : lifecycle_inv mount.
Proof. split; [reflexivity |]. intros _. split; [apply le_n | reflexivity]. Qed.

Lemma step_inv (formatDate : string -> string) (ev : Event) (c c' : Instance) :
  lifecycle_inv c -> step formatDate ev c = Some c' -> lifecycle_inv c'.
Proof.
  intros (D & L) S. destruct ev as [a | net |].
  - apply step_click_inv in S as [_ ->].
    split; [exact D |]. intros _. simpl. split; [lia | reflexivity].
  - apply step_settle_inv in S as (n & _ & ->).
    rewrite commit_settled by exact D. split; [reflexivity |]. simpl.
    rewrite (proj1 (resume_loading_requests net (world c))). discriminate.
  - cbn [step] in S. injection S as <-.
    rewrite commit_settled by exact D. split; [reflexivity | exact L].
Qed.

Lemma run_inv (formatDate : string -> string) (evs : list Event) :
  forall c c',
    lifecycle_inv c -> run formatDate evs c = Some c' -> lifecycle_inv c'.
Proof.
  induction evs as [| ev rest IH]; intros c c' I R; cbn [run] in R.
  - injection R as <-. exact I.
  - destruct (step formatDate ev c) as [c1 |] eqn:S; [| discriminate R].
    exact (IH c1 c' (step_inv formatDate ev c c1 I S) R).
Qed.

(** Every request is either still outstanding or has been answered. *)
Lemma run_outstanding (formatDate : string -> string) (evs : list Event) :
  forall c c',
    effect_deps c = Some [] ->
    run formatDate evs c = Some c' ->
    effect_deps c' = Some [] /\
    in_flight c' + length (filter is_settle evs) =
      in_flight c + length (filter is_click evs).
Proof.
  induction evs as [| ev rest IH]; intros c c' D R; cbn [run] in R.
  - injection R as <-. split; [exact D |]. simpl. lia.
  - destruct (step formatDate ev c) as [c1 |] eqn:S; [| discriminate R].
    assert (D1 : effect_deps c1 = Some [])
      by exact (proj1 (step_requests formatDate ev c c1 D S)).
    destruct (IH c1 c' D1 R) as [D' Q]. split; [exact D' |].
    destruct ev as [a | net |].
    + apply step_click_inv in S as [_ ->]. simpl in Q |- *. lia.
    + apply step_settle_inv in S as (n & I & ->).
      rewrite commit_settled in Q by exact D. simpl in Q |- *. lia.
    + cbn [step] in S. injection S as <-.
      rewrite commit_settled in Q by exact D. simpl in Q |- *. lia.
Qed.

(** X9. The component keeps count of its calls: in every state reachable
    from mount, the calls of [fetchWaitlist] still suspended are the
    requests sent minus the answers handled, and while [loading] is [true]
    at least one call is suspended, so the spinner never waits for
    nothing. Nothing bounds the number of suspended calls: [fetchWaitlist]
    has no guard, and a second click taken before the re-render starts a
    second call. *)
Theorem X9_outstanding_calls (formatDate : string -> string)
    (evs : list Event) (c : Instance) :
  run formatDate evs mount = Some c ->
  in_flight c + length (filter is_settle evs) = length (requests (world c)) /\
  (loading (state (world c)) = true -> 1 <= in_flight c).
Proof.
  intros R.
  destruct (run_outstanding formatDate evs mount c mount_deps R) as [_ Q].
  destruct (run_requests formatDate evs mount c mount_deps R) as [_ Rq].
  destruct (run_inv formatDate evs mount c mount_inv R) as [_ L].
  split.
  - rewrite Rq, length_app, repeat_length. simpl in Q |- *. lia.
  - intros T. exact (proj1 (L T)).
Qed.

Lemma X9_outstanding_calls_witness :
  let page := Fulfilled (mkResponse 200
                (Fulfilled (JsonValue (mkBody (Value [sample_entry 1 "vendor"]))))) in
  let evs := [Settle page; Click Refresh; Click Refresh] in
  exists c,
    run sample_formatDate evs mount = Some c /\
    in_flight c = 2 /\
    length (requests (world c)) = 3 /\
    in_flight c + length (filter is_settle evs) = length (requests (world c)).
Proof.
  intros page evs.
  destruct (run sample_formatDate evs mount) as [c |] eqn:R;
    [| vm_compute in R; discriminate R].
  assert (F : in_flight c = 2 /\ length (requests (world c)) = 3).
  { vm_compute in R. injection R as <-. split; reflexivity. }
  exists c. split; [reflexivity |].
  split; [exact (proj1 F) |]. split; [exact (proj2 F) |].
  exact (proj1 (X9_outstanding_calls sample_formatDate evs c R)).
Defined.

(** X10. In every state a mounted component can reach, [loading] and a
    set error never coexist: whenever [error] holds a message, [loading]
    is [false] and the render of the state is the page, not the spinner. *)
Theorem X10_no_error_while_loading (formatDate : string -> string)
    (evs : list Event) (c : Instance) (msg : string) :
  run formatDate evs mount = Some c ->
  error (state (world c)) = Some msg ->
  loading (state (world c)) = false /\
  shows_stats_and_table (render formatDate (state (world c))) = true.
Proof.
  intros R E.
  destruct (run_inv formatDate evs mount c mount_inv R) as [_ N].
  destruct (loading (state (world c))) eqn:L.
  - rewrite (proj2 (N eq_refl)) in E. discriminate E.
  - split; [reflexivity |]. unfold render. rewrite L. reflexivity.
Qed.

Lemma X10_no_error_while_loading_witness :
  let page := Fulfilled (mkResponse 200
                (Fulfilled (JsonValue (mkBody (Value [sample_entry 1 "vendor"]))))) in
  let broken := Fulfilled (mkResponse 500 (Fulfilled (JsonValue (mkBody Null)))) in
  let evs := [Settle page; Click Refresh; Click Refresh; Settle broken] in
  exists c,
    run sample_formatDate evs mount = Some c /\
    error (state (world c)) = Some "Failed to fetch waitlist" /\
    in_flight c = 1 /\
    loading (state (world c)) = false.
Proof.
  intros page broken evs.
  destruct (run sample_formatDate evs mount) as [c |] eqn:R;
    [| vm_compute in R; discriminate R].
  assert (E : error (state (world c)) = Some "Failed to fetch waitlist"
              /\ in_flight c = 1).
  { vm_compute in R. injection R as <-. split; reflexivity. }
  exists c. split; [reflexivity |]. split; [exact (proj1 E) |].
  split; [exact (proj2 E) |].
  exact (proj1 (X10_no_error_while_loading sample_formatDate evs c _ R (proj1 E))).
Defined.



(** X12. The entries are replaced only by a 2xx answer whose body parses
    to a value other than [null]: if an event leaves the component with
    entries different from those it had, the event is such an answer and
    the new entries are its data. A click, a re-render, a rejected request,
    a non-2xx status, an unparseable body and a [null] body all leave the
    entries as they were. *)
Theorem X12_entries_change_only_on_success (formatDate : string -> string)
    (ev : Event) (c c' : Instance) :
  step formatDate ev c = Some c' ->
  entries (state (world c')) <> entries (state (world c)) ->
  exists r body,
    ev = Settle (Fulfilled r) /\ is_2xx r /\
    json r = Fulfilled (JsonValue body) /\
    entries (state (world c')) = or_empty (data body).
Proof.
  intros S N. destruct ev as [a | net |].
  - apply step_click_inv in S as [_ ->].
    contradiction N. reflexivity.
  - apply step_settle_inv in S as (n & _ & ->).
    unfold commit in N |- *. rewrite useEffect_entries in N |- *.
    simpl in N |- *.
    destruct net as [r | err].
    + destruct (is_2xx_or_not r) as [H | H].
      * destruct (json r) as [[| body] | err] eqn:J.
        -- rewrite (resume_null_body r _ H J) in N.
           contradiction N. reflexivity.
        -- exists r, body. rewrite (resume_success r body _ H J). auto.
        -- rewrite (resume_parse_error r err _ H J) in N.
           contradiction N. reflexivity.
      * rewrite (resume_non_2xx r _ H) in N. contradiction N. reflexivity.
    + rewrite resume_rejected in N. contradiction N. reflexivity.
  - cbn [step] in S. injection S as <-.
    unfold commit in N. rewrite useEffect_entries in N.
    contradiction N. reflexivity.
Qed.

Lemma X12_entries_change_only_on_success_witness :
  let page := mkResponse 200
                (Fulfilled (JsonValue (mkBody (Value [sample_entry 1 "vendor"])))) in
  exists c',
    step sample_formatDate (Settle (Fulfilled page)) mount = Some c' /\
    entries (state (world c')) <> entries (state (world mount)) /\
    exists r body,
      Settle (Fulfilled page) = Settle (Fulfilled r) /\ is_2xx r /\
      json r = Fulfilled (JsonValue body) /\
      entries (state (world c')) = or_empty (data body).
Proof.
  intros page.
  destruct (step sample_formatDate (Settle (Fulfilled page)) mount)
    as [c' |] eqn:S; [| vm_compute in S; discriminate S].
  assert (N : entries (state (world c')) <> entries (state (world mount))).
  { vm_compute in S. injection S as <-. discriminate. }
  exists c'. split; [reflexivity |]. split; [exact N |].
  exact (X12_entries_change_only_on_success sample_formatDate _ mount c' S N).
Defined.
